(** * HomepageFeatures: a shallow embedding of
    src/my-docs/src/components/HomepageFeatures/index.js

    The module holds a constant array [FeatureList] of three plain object
    literals.  [HomepageFeatures] maps over it, building one
    [<Feature key={idx} {...props} />] element per record, and [Feature]
    destructures [Svg], [title] and [description] from its props.

    The model keeps the JavaScript heap explicit: the array and its records
    live in a store, JSX element creation allocates a fresh props object
    (React's [createElement]/[jsx] copy the config, dropping [key]), and a
    second pass (React's render) resolves each [Feature] element by reading
    its props object and calling [Feature]. *)

From stdpp Require Import base gmap strings list fin_maps pretty.
Set Warnings "-register-all".

(** ** Values, React elements and the heap *)

Definition loc := N.

(** The type of a JSX element: a host tag ("div", "p", ...) or a component
    imported from another module (the SVG components and [@theme/Heading]). *)
Inductive etype :=
| Host (tag : string)
| Imported (path : string).

(** JavaScript values that appear in this module, and React nodes. *)
Inductive value :=
| VUndef
| VNum (n : nat)
| VStr (s : string)
| VComp (path : string)           (** a component value, e.g. [require(..).default] *)
| VNode (n : node)                (** a JSX expression such as [<>...</>] *)
with node :=
| Text (s : string)
| Frag (cs : list node)
| Elem (t : etype) (attrs : list (string * string)) (cs : list node)
| FeatureEl (key : option value) (props : loc). (** [<Feature .../>], unrendered *)

(** A plain JavaScript object. *)
Abbreviation jsobj := (gmap string value).

(** Heap cells: plain objects and arrays (of references to cells). *)
Inductive hval :=
| HObj (o : jsobj)
| HArr (ls : list loc).

Abbreviation store := (gmap loc hval).

(** [o.k]: a missing property reads as [undefined]. *)
Definition get (o : jsobj) (k : string) : value :=
  match o !! k with Some v => v | None => VUndef end.

(** Allocation of a fresh cell. *)
Definition alloc (σ : store) (h : hval) : loc * store :=
  let l := fresh (dom σ) in (l, <[l := h]> σ).
Arguments alloc : simpl never.

(** ** Imported dependencies *)

Section Component.

(** [import styles from './styles.module.css']: CSS-module class names. *)
Variable styles : string -> string.

(** [clsx('col col--4')]: a single string argument is returned as is. *)
Definition clsx (s : string) : string := s.

(** A value used as a JSX tag ([<Svg .../>]): strings are host tags,
    components are rendered; anything else makes React throw
    ("Element type is invalid"). *)
Definition elem_type (v : value) : option etype :=
  match v with
  | VStr s => Some (Host s)
  | VComp c => Some (Imported c)
  | _ => None
  end.

(** A value used as a JSX child ([{title}], [{description}]).  [undefined]
    renders nothing; a function is not a valid React child and renders
    nothing either. *)
Definition child (v : value) : node :=
  match v with
  | VUndef => Frag []
  | VNum n => Text (pretty (N.of_nat n))
  | VStr s => Text s
  | VComp _ => Frag []
  | VNode n => n
  end.

(** ** [function Feature({Svg, title, description})]  (lines 38-50)
    [None] is the exception React raises when rendering [<Svg/>] with an
    invalid element type. *)
Definition Feature (props : jsobj) : option node :=
  let Svg := get props "Svg" in
  let title := get props "title" in
  let description := get props "description" in
  match elem_type Svg with
  | None => None
  | Some svg =>
      Some (Elem (Host "div") [("className", clsx "col col--4")]
        [ Elem (Host "div") [("className", "text--center")]
            [ Elem svg [("className", styles "featureSvg"); ("role", "img")] [] ];
          Elem (Host "div") [("className", "text--center padding-horiz--md")]
            [ Elem (Imported "@theme/Heading") [("as", "h3")] [child title];
              Elem (Host "p") [] [child description] ] ])
  end.

(** ** [<Feature key={idx} {...props} />]  (line 58)
    The config object is [{key: idx, ...props}]: the spread comes later, so
    the record's own fields win ([∪] is left-biased).  React takes the key
    out of the config and allocates the props object from the rest. *)
Definition jsx_config (idx : nat) (props : jsobj) : jsobj :=
  props ∪ {[ "key" := VNum idx ]}.

Definition feature_props (idx : nat) (props : jsobj) : jsobj :=
  delete "key" (jsx_config idx props).

Definition feature_key (idx : nat) (props : jsobj) : option value :=
  jsx_config idx props !! "key".

(** [FeatureList.map((props, idx) => <Feature key={idx} {...props} />)],
    threading the store through the allocations.  Array elements other
    than plain objects are outside the model ([None]). *)
Fixpoint map_features (σ : store) (idx : nat) (ls : list loc)
    : option (store * list node) :=
  match ls with
  | [] => Some (σ, [])
  | l :: ls' =>
      match σ !! l with
      | Some (HObj props) =>
          let '(l', σ1) := alloc σ (HObj (feature_props idx props)) in
          match map_features σ1 (S idx) ls' with
          | Some (σ2, els) => Some (σ2, FeatureEl (feature_key idx props) l' :: els)
          | None => None
          end
      | _ => None
      end
  end.

(** The static layout around the cards (lines 54-56, 60-62). *)
Definition section (cards : list node) : node :=
  Elem (Host "section") [("className", styles "features")]
    [ Elem (Host "div") [("className", "container")]
        [ Elem (Host "div") [("className", "row")] cards ] ].

(** ** [export default function HomepageFeatures()]  (lines 52-64)
    [fl] is the location of the module constant [FeatureList]. *)
Definition HomepageFeatures (σ : store) (fl : loc) : option (store * node) :=
  match σ !! fl with
  | Some (HArr ls) =>
      match map_features σ 0 ls with
      | Some (σ', cards) => Some (σ', section cards)
      | None => None
      end
  | _ => None
  end.

(** React's render of the element tree: each [Feature] element is
    replaced by what [Feature] returns on its props object. *)
Fixpoint render (σ : store) (n : node) : option node :=
  match n with
  | Text s => Some (Text s)
  | Frag cs => Frag <$> mapM (render σ) cs
  | Elem t a cs => Elem t a <$> mapM (render σ) cs
  | FeatureEl _ l =>
      match σ !! l with
      | Some (HObj props) => Feature props
      | _ => None
      end
  end.

(** Mounting the homepage section: build the elements, then render. *)
Definition render_page (σ : store) (fl : loc) : option (store * node) :=
  match HomepageFeatures σ fl with
  | Some (σ', t) =>
      match render σ' t with
      | Some out => Some (σ', out)
      | None => None
      end
  | None => None
  end.

End Component.

(** ** [const FeatureList = [...]]  (lines 5-36) *)
Definition FeatureList : list jsobj :=
  [ {[ "title" := VStr "Organized Study Notes";
       "Svg" := VComp "@site/static/img/undraw_docusaurus_mountain.svg";
       "description" := VNode (Frag [Text "Keep all your study notes structured and easily accessible in one centralized place."]) ]};
    {[ "title" := VStr "Copyable Code & Diagrams";
       "Svg" := VComp "@site/static/img/undraw_docusaurus_tree.svg";
       "description" := VNode (Frag [Text "Include code snippets, diagrams, and links that you can copy or reference instantly while studying."]) ]};
    {[ "title" := VStr "Markdown Powered";
       "Svg" := VComp "@site/static/img/undraw_docusaurus_react.svg";
       "description" := VNode (Frag [Text "Write your notes in Markdown, with full support for headings, lists, images, and links — powered by React for seamless integration."]) ]} ].

(** The module's heap after evaluating [FeatureList]: the array at
    location 0, its records at locations 1, 2 and 3. *)
Definition FeatureList_loc : loc := 0%N.

Definition init_store : store :=
  <[0%N := HArr [1%N; 2%N; 3%N]]>
  (<[1%N := HObj (FeatureList !!! 0)]>
  (<[2%N := HObj (FeatureList !!! 1)]>
  (<[3%N := HObj (FeatureList !!! 2)]> ∅))).

(** ** Auxiliary definitions for the statements *)

(** Location [l] holds the plain object [r]. *)
Definition points_to (σ : store) (l : loc) (r : jsobj) : Prop :=
  σ !! l = Some (HObj r).

(** What rendering the cards built from [recs], numbered from [idx], gives. *)
Fixpoint render_cards (styles : string -> string) (idx : nat) (recs : list jsobj)
    : option (list node) :=
  match recs with
  | [] => Some []
  | r :: rs =>
      match Feature styles (feature_props idx r), render_cards styles (S idx) rs with
      | Some c, Some cs => Some (c :: cs)
      | _, _ => None
      end
  end.

(** The React keys of a list of elements ([None] for non-[Feature] nodes). *)
Definition keys_of (cards : list node) : list (option value) :=
  (fun c => match c with FeatureEl k _ => k | _ => None end) <$> cards.

(** A heap whose records carry their own [key] field: the array at 0 holds
    two records, both with [key: 'a']. *)
Definition keyed_store : store :=
  <[0%N := HArr [1%N; 2%N]]>
  (<[1%N := HObj {[ "key" := VStr "a"; "title" := VStr "A";
                   "Svg" := VComp "a.svg"; "description" := VStr "first" ]}]>
  (<[2%N := HObj {[ "key" := VStr "a"; "title" := VStr "B";
                   "Svg" := VComp "b.svg"; "description" := VStr "second" ]}]> ∅)).

(** ** Heap lemmas *)

Lemma alloc_extends (σ : store) h :
  σ ⊆ (alloc σ h).2 /\ σ !! (alloc σ h).1 = None.
Proof.
  unfold alloc; simpl.
  assert (Hn : σ !! fresh (dom σ) = None)
    by (apply not_elem_of_dom_1, is_fresh).
  split; [by apply insert_subseteq | exact Hn].
Qed.

Lemma map_features_extends (σ σ' : store) idx ls cards :
  map_features σ idx ls = Some (σ', cards) -> σ ⊆ σ'.
Proof.
  revert σ idx cards.
  induction ls as [|l ls IH]; intros σ idx cards Hm; cbn -[alloc] in Hm.
  - by injection Hm as -> _.
  - destruct (σ !! l) as [[props|]|] eqn:Hl; try discriminate.
    destruct (alloc_extends σ (HObj (feature_props idx props))) as [Hsub _].
    destruct (alloc σ _) as [l' σ1] eqn:Ha; cbn -[alloc] in Hsub, Hm.
    destruct (map_features σ1 (S idx) ls) as [[σ2 els]|] eqn:Hr;
      try discriminate.
    injection Hm as -> _.
    etransitivity; [exact Hsub | exact (IH _ _ _ Hr)].
Qed.

Lemma map_features_spec styles (σ : store) idx ls recs :
  Forall2 (points_to σ) ls recs ->
  exists σ' cards,
    map_features σ idx ls = Some (σ', cards) /\
    σ ⊆ σ' /\
    length cards = length recs /\
    mapM (render styles σ') cards = render_cards styles idx recs /\
    (forall i r, recs !! i = Some r ->
       exists l', cards !! i = Some (FeatureEl (feature_key (idx + i) r) l') /\
                  points_to σ' l' (feature_props (idx + i) r)).
Proof.
  intros Hall. revert σ idx ls Hall.
  induction recs as [|r recs IH]; intros σ idx ls Hall.
  - apply Forall2_nil_inv_r in Hall as ->.
    exists σ, []. split_and!; try done; intros i r Hi; by rewrite lookup_nil in Hi.
  - apply Forall2_cons_inv_r in Hall as (l & ls' & Hl & Hrest & ->).
    cbn -[alloc]. rewrite Hl.
    destruct (alloc_extends σ (HObj (feature_props idx r))) as [Hsub Hfree].
    destruct (alloc σ _) as [l' σ1] eqn:Ha; cbn -[alloc] in Hsub, Hfree |- *.
    assert (Hl' : σ1 !! l' = Some (HObj (feature_props idx r))).
    { unfold alloc in Ha. injection Ha as <- <-. apply lookup_insert_eq. }
    assert (Hrest1 : Forall2 (points_to σ1) ls' recs).
    { eapply Forall2_impl; [exact Hrest|]. intros x y Hx.
      unfold points_to in *. eapply lookup_weaken; eauto. }
    destruct (IH σ1 (S idx) ls' Hrest1)
      as (σ2 & els & Hm & Hsub2 & Hlen & Hren & Hcards).
    rewrite Hm.
    exists σ2, (FeatureEl (feature_key idx r) l' :: els).
    assert (Hl2 : σ2 !! l' = Some (HObj (feature_props idx r)))
      by (eapply lookup_weaken; eauto).
    split_and!.
    + done.
    + etransitivity; eauto.
    + simpl. by rewrite Hlen.
    + simpl. rewrite Hl2, Hren. done.
    + intros [|i] r' Hi; simpl in Hi.
      * injection Hi as <-. exists l'. rewrite Nat.add_0_r. split; [done|exact Hl2].
      * destruct (Hcards i r' Hi) as (l'' & Hc & Hp). exists l''.
        rewrite <- Nat.add_succ_comm. split; [exact Hc | exact Hp].
Qed.

(** A field other than [key] of the props object is the record's field. *)
Lemma feature_props_get idx (r : jsobj) k :
  k <> "key" -> get (feature_props idx r) k = get r k.
Proof.
  intros Hk. unfold get, feature_props, jsx_config.
  rewrite lookup_delete_ne by congruence.
  rewrite lookup_union, lookup_singleton_ne by congruence.
  by destruct (r !! k).
Qed.

Lemma feature_key_no_key idx (r : jsobj) :
  r !! "key" = None -> feature_key idx r = Some (VNum idx).
Proof.
  intros Hk. unfold feature_key, jsx_config.
  rewrite lookup_union_r by exact Hk. apply lookup_singleton_eq.
Qed.

Lemma render_cards_length styles idx recs outs :
  render_cards styles idx recs = Some outs -> length outs = length recs.
Proof.
  revert idx outs. induction recs as [|r recs IH]; intros idx outs H; simpl in H.
  - by injection H as <-.
  - destruct (Feature styles _) as [c|]; [|discriminate].
    destruct (render_cards styles (S idx) recs) as [cs|] eqn:Hcs; [|discriminate].
    injection H as <-. simpl. f_equal. eapply IH; eauto.
Qed.

(** The whole pipeline on an array of plain records. *)
Lemma render_page_spec styles (σ : store) fl ls recs :
  σ !! fl = Some (HArr ls) ->
  Forall2 (points_to σ) ls recs ->
  exists σ' cards,
    HomepageFeatures styles σ fl = Some (σ', section styles cards) /\
    σ ⊆ σ' /\
    length cards = length recs /\
    (forall i r, recs !! i = Some r ->
       exists l', cards !! i = Some (FeatureEl (feature_key i r) l') /\
                  points_to σ' l' (feature_props i r)) /\
    render_page styles σ fl =
      (fun outs => (σ', section styles outs)) <$> render_cards styles 0 recs.
Proof.
  intros Hfl Hall.
  destruct (map_features_spec styles σ 0 ls recs Hall)
    as (σ' & cards & Hm & Hsub & Hlen & Hren & Hcards).
  assert (Hhf : HomepageFeatures styles σ fl = Some (σ', section styles cards)).
  { unfold HomepageFeatures. by rewrite Hfl, Hm. }
  exists σ', cards. split_and!; try done.
  unfold render_page. rewrite Hhf. unfold section. simpl. rewrite Hren.
  by destruct (render_cards styles 0 recs).
Qed.

(** The records of [FeatureList] in the module's heap. *)
Lemma init_store_FeatureList :
  init_store !! FeatureList_loc = Some (HArr [1%N; 2%N; 3%N]) /\
  Forall2 (points_to init_store) [1%N; 2%N; 3%N] FeatureList.
Proof.
  split; [reflexivity|].
  repeat constructor.
Qed.

(** ** Claims *)

(** C1: [HomepageFeatures] renders exactly one [Feature] element per element
    of [FeatureList], in the order of the array, and the props object of the
    i-th card has the [title], [Svg] and [description] of the i-th record. *)
Theorem HomepageFeatures_maps_FeatureList styles :
  exists σ' cards,
    HomepageFeatures styles init_store FeatureList_loc = Some (σ', section styles cards) /\
    length cards = length FeatureList /\
    forall i r, FeatureList !! i = Some r ->
      exists k l' p, cards !! i = Some (FeatureEl k l') /\ points_to σ' l' p /\
        get p "title" = get r "title" /\ get p "Svg" = get r "Svg" /\
        get p "description" = get r "description".
Proof.
  destruct init_store_FeatureList as [Hfl Hall].
  destruct (render_page_spec styles _ _ _ _ Hfl Hall)
    as (σ' & cards & Hhf & _ & Hlen & Hcards & _).
  exists σ', cards. split_and!; [done|done|].
  intros i r Hi. destruct (Hcards i r Hi) as (l' & Hc & Hp).
  exists (feature_key i r), l', (feature_props i r).
  split_and!; try done; by apply feature_props_get.
Qed.

(** C2: every record of [FeatureList] has a [title], an [Svg] and a
    [description], each present and not [undefined]. *)
Theorem FeatureList_records_complete :
  Forall (fun r : jsobj =>
    exists s c d, r !! "title" = Some (VStr s) /\ r !! "Svg" = Some (VComp c) /\
                  r !! "description" = Some (VNode d)) FeatureList.
Proof. repeat constructor; do 3 eexists; split_and!; reflexivity. Qed.

(** C3: rendering the shipped homepage section succeeds; [Feature] fails
    exactly when its [Svg] prop is not a valid element type (for instance
    when it is missing), which no record of [FeatureList] triggers. *)
Theorem HomepageFeatures_render_succeeds styles :
  (exists σ' out, render_page styles init_store FeatureList_loc = Some (σ', out)) /\
  (forall p, Feature styles p = None <-> elem_type (get p "Svg") = None) /\
  Forall (fun r => exists c, Feature styles (feature_props 0 r) = Some c) FeatureList.
Proof.
  split_and!.
  - destruct init_store_FeatureList as [Hfl Hall].
    destruct (render_page_spec styles _ _ _ _ Hfl Hall) as (σ' & _ & _ & _ & _ & _ & ->).
    simpl. eauto.
  - intros p. unfold Feature. destruct (elem_type (get p "Svg")); split; congruence.
  - repeat constructor; eexists; reflexivity.
Qed.

(** C4: [FeatureList] has three records and [HomepageFeatures] renders
    three cards from it. *)
Theorem HomepageFeatures_three_cards styles :
  length FeatureList = 3 /\
  exists σ' cards outs,
    HomepageFeatures styles init_store FeatureList_loc = Some (σ', section styles cards) /\
    length cards = 3 /\
    render_page styles init_store FeatureList_loc = Some (σ', section styles outs) /\
    length outs = 3.
Proof.
  split; [reflexivity|].
  destruct init_store_FeatureList as [Hfl Hall].
  destruct (render_page_spec styles _ _ _ _ Hfl Hall)
    as (σ' & cards & Hhf & _ & Hlen & _ & Hr).
  rewrite Hr. simpl. eexists σ', cards, _. split_and!; [done|done|reflexivity|reflexivity].
Qed.

(** C5: [HomepageFeatures] is deterministic and keeps no state across
    renders: two heaps holding the same records in their [FeatureList]
    array (whatever else they hold, wherever the cells are) render to the
    same output, and rendering again on the heap left by a render gives the
    same output. *)
Theorem render_page_deterministic styles (σ1 σ2 : store) fl1 fl2 ls1 ls2 recs :
  σ1 !! fl1 = Some (HArr ls1) -> Forall2 (points_to σ1) ls1 recs ->
  σ2 !! fl2 = Some (HArr ls2) -> Forall2 (points_to σ2) ls2 recs ->
  snd <$> render_page styles σ1 fl1 = snd <$> render_page styles σ2 fl2 /\
  (forall σ1' out, render_page styles σ1 fl1 = Some (σ1', out) ->
     snd <$> render_page styles σ1' fl1 = Some out).
Proof.
  intros Hfl1 Hall1 Hfl2 Hall2.
  destruct (render_page_spec styles _ _ _ _ Hfl1 Hall1)
    as (σ1' & _ & _ & Hsub1 & _ & _ & Hr1).
  destruct (render_page_spec styles _ _ _ _ Hfl2 Hall2)
    as (σ2' & _ & _ & _ & _ & _ & Hr2).
  split.
  - rewrite Hr1, Hr2. by destruct (render_cards styles 0 recs).
  - intros σ' out Hr. rewrite Hr1 in Hr.
    destruct (render_cards styles 0 recs) as [outs|] eqn:Hc; [|discriminate].
    simpl in Hr. injection Hr as <- <-.
    assert (Hfl1' : σ1' !! fl1 = Some (HArr ls1)) by (eapply lookup_weaken; eauto).
    assert (Hall1' : Forall2 (points_to σ1') ls1 recs).
    { eapply Forall2_impl; [exact Hall1|]. intros x y Hx.
      unfold points_to in *. eapply lookup_weaken; eauto. }
    destruct (render_page_spec styles _ _ _ _ Hfl1' Hall1')
      as (σ3 & _ & _ & _ & _ & _ & Hr3).
    by rewrite Hr3, Hc.
Qed.

(** A second heap for the witness: an unrelated cell is present. *)
Definition other_store : store := <[7%N := HObj {[ "title" := VStr "other" ]}]> init_store.

Lemma render_page_deterministic_witness :
  snd <$> render_page (fun s => s) init_store FeatureList_loc =
    snd <$> render_page (fun s => s) other_store FeatureList_loc.
Proof.
  destruct init_store_FeatureList as [Hfl Hall].
  refine (proj1 (render_page_deterministic (fun s => s) init_store other_store
            FeatureList_loc FeatureList_loc [1%N; 2%N; 3%N] [1%N; 2%N; 3%N]
            FeatureList Hfl Hall _ _)).
  - reflexivity.
  - repeat constructor.
Defined.

(** C6: for every array of plain records, [HomepageFeatures] builds one
    [Feature] element per record, and a successful render shows one card
    per record. *)
Theorem HomepageFeatures_card_count styles (σ : store) fl ls recs :
  σ !! fl = Some (HArr ls) -> Forall2 (points_to σ) ls recs ->
  exists σ' cards,
    HomepageFeatures styles σ fl = Some (σ', section styles cards) /\
    length cards = length ls /\
    Forall (fun c => exists k l, c = FeatureEl k l) cards /\
    (forall σ'' outs, render_page styles σ fl = Some (σ'', section styles outs) ->
       length outs = length ls).
Proof.
  intros Hfl Hall.
  pose proof (Forall2_length _ _ _ Hall) as Hls.
  destruct (render_page_spec styles _ _ _ _ Hfl Hall)
    as (σ' & cards & Hhf & _ & Hlen & Hcards & Hr).
  exists σ', cards. split_and!.
  - done.
  - lia.
  - apply Forall_lookup. intros i c Hc.
    assert (Hi : i < length recs) by (rewrite <- Hlen; eapply lookup_lt_Some; eauto).
    apply lookup_lt_is_Some_2 in Hi as [r Hr'].
    destruct (Hcards i r Hr') as (l' & Hc' & _).
    rewrite Hc in Hc'. injection Hc' as ->. eauto.
  - intros σ'' outs Hr2. rewrite Hr in Hr2.
    destruct (render_cards styles 0 recs) as [outs'|] eqn:Hc; [|discriminate].
    simpl in Hr2. injection Hr2 as _ <-.
    rewrite (render_cards_length _ _ _ _ Hc). lia.
Qed.

Lemma HomepageFeatures_card_count_witness :
  exists σ' cards,
    HomepageFeatures (fun s => s) init_store FeatureList_loc = Some (σ', section (fun s => s) cards) /\
    length cards = 3 /\
    Forall (fun c => exists k l, c = FeatureEl k l) cards /\
    (forall σ'' outs, render_page (fun s => s) init_store FeatureList_loc = Some (σ'', section (fun s => s) outs) ->
       length outs = 3).
Proof.
  destruct init_store_FeatureList as [Hfl Hall].
  exact (HomepageFeatures_card_count (fun s => s) init_store FeatureList_loc _ _ Hfl Hall).
Defined.

(** C7: each rendered card is the column [div.col.col--4] holding the icon
    (the record's [Svg] component with [role="img"]), the title in an [h3]
    [Heading] and the description in a [p]; the cards sit in the [row] div
    of the [container] inside the homepage [section]. *)
Theorem Feature_card_layout styles :
  exists σ' outs,
    render_page styles init_store FeatureList_loc = Some (σ', section styles outs) /\
    length outs = length FeatureList /\
    forall i r, FeatureList !! i = Some r ->
      exists c s d,
        get r "Svg" = VComp c /\ get r "title" = VStr s /\ get r "description" = VNode d /\
        outs !! i = Some
          (Elem (Host "div") [("className", "col col--4")]
             [ Elem (Host "div") [("className", "text--center")]
                 [ Elem (Imported c) [("className", styles "featureSvg"); ("role", "img")] [] ];
               Elem (Host "div") [("className", "text--center padding-horiz--md")]
                 [ Elem (Imported "@theme/Heading") [("as", "h3")] [Text s];
                   Elem (Host "p") [] [d] ] ]).
Proof.
  destruct init_store_FeatureList as [Hfl Hall].
  destruct (render_page_spec styles _ _ _ _ Hfl Hall)
    as (σ' & _ & _ & _ & _ & _ & Hr).
  rewrite Hr. eexists _, _. split_and!; [reflexivity|reflexivity|].
  intros [|[|[|i]]] r Hi; simpl in Hi; try discriminate;
    injection Hi as <-; do 3 eexists; split_and!; reflexivity.
Qed.

(** C8: a render writes no existing heap cell: every cell of the heap
    before the render (the [FeatureList] array and each of its records
    among them) holds the same value afterwards; the render only allocates
    the fresh props objects of the [Feature] elements. *)
Theorem render_page_preserves_heap styles (σ σ' : store) fl t :
  render_page styles σ fl = Some (σ', t) ->
  forall l h, σ !! l = Some h -> σ' !! l = Some h.
Proof.
  intros Hr l h Hl. unfold render_page, HomepageFeatures in Hr.
  destruct (σ !! fl) as [[|ls]|]; try discriminate.
  destruct (map_features σ 0 ls) as [[σ1 cards]|] eqn:Hm; try discriminate.
  destruct (render styles σ1 _); try discriminate.
  injection Hr as <- _.
  eapply lookup_weaken; [exact Hl|]. eapply map_features_extends; eauto.
Qed.

Lemma render_page_preserves_heap_witness :
  exists σ' t,
    render_page (fun s => s) init_store FeatureList_loc = Some (σ', t) /\
    σ' !! FeatureList_loc = Some (HArr [1%N; 2%N; 3%N]).
Proof.
  eexists _, _. split; [reflexivity|].
  eapply (render_page_preserves_heap (fun s => s) init_store _ FeatureList_loc); reflexivity.
Defined.

(** C9 (as stated, refuted): the keys need not be the indices nor pairwise
    distinct.  The spread [{...props}] comes after [key={idx}], so a record
    with its own [key] field overrides the index. *)
Lemma HomepageFeatures_keys_counterexample :
  exists σ' cards,
    HomepageFeatures (fun s => s) keyed_store 0%N = Some (σ', section (fun s => s) cards) /\
    keys_of cards = [Some (VStr "a"); Some (VStr "a")] /\
    keys_of cards <> (fun i => Some (VNum i)) <$> seq 0 (length cards) /\
    ~ NoDup (keys_of cards).
Proof.
  eexists _, _. split; [reflexivity|].
  split_and!.
  - reflexivity.
  - vm_compute. congruence.
  - vm_compute. intros Hnd. apply NoDup_cons in Hnd as [Hn _]. apply Hn. left.
Qed.

(** C9 (amended): when no record has an own [key] field, the key of the
    i-th [Feature] element is the index i, so the keys are [0 .. N-1] and
    pairwise distinct. *)
Theorem HomepageFeatures_keys_are_indices styles (σ : store) fl ls recs :
  σ !! fl = Some (HArr ls) -> Forall2 (points_to σ) ls recs ->
  Forall (fun r : jsobj => r !! "key" = None) recs ->
  exists σ' cards,
    HomepageFeatures styles σ fl = Some (σ', section styles cards) /\
    keys_of cards = (fun i => Some (VNum i)) <$> seq 0 (length ls) /\
    NoDup (keys_of cards).
Proof.
  intros Hfl Hall Hnokey.
  pose proof (Forall2_length _ _ _ Hall) as Hls.
  destruct (render_page_spec styles _ _ _ _ Hfl Hall)
    as (σ' & cards & Hhf & _ & Hlen & Hcards & _).
  assert (Hkeys : keys_of cards = (fun i => Some (VNum i)) <$> seq 0 (length ls)).
  { apply list_eq. intros i. unfold keys_of. rewrite !list_lookup_fmap.
    destruct (decide (i < length recs)) as [Hi|Hi].
    - apply lookup_lt_is_Some_2 in Hi as Hr. destruct Hr as [r Hr].
      destruct (Hcards i r Hr) as (l' & Hc & _). rewrite Hc.
      rewrite lookup_seq_lt by lia. simpl.
      rewrite feature_key_no_key; [done|].
      rewrite Forall_lookup in Hnokey. exact (Hnokey i r Hr).
    - rewrite (lookup_ge_None_2 cards i) by lia.
      rewrite lookup_seq_ge by lia. done. }
  exists σ', cards. split_and!; [done|done|].
  rewrite Hkeys. apply NoDup_fmap_2_strong; [|apply NoDup_seq].
  intros x y _ _ Hxy. by injection Hxy.
Qed.

Lemma HomepageFeatures_keys_are_indices_witness :
  exists σ' cards,
    HomepageFeatures (fun s => s) init_store FeatureList_loc = Some (σ', section (fun s => s) cards) /\
    keys_of cards = [Some (VNum 0); Some (VNum 1); Some (VNum 2)] /\
    NoDup (keys_of cards).
Proof.
  destruct init_store_FeatureList as [Hfl Hall].
  apply (HomepageFeatures_keys_are_indices (fun s => s) init_store FeatureList_loc _ _ Hfl Hall).
  repeat constructor.
Defined.

(** C10: a card depends only on the [Svg], [title] and [description]
    fields of its record: records that agree on these three fields give
    the same card, whatever their other fields and their positions. *)
Theorem Feature_depends_on_three_fields styles i j (r1 r2 : jsobj) :
  get r1 "Svg" = get r2 "Svg" ->
  get r1 "title" = get r2 "title" ->
  get r1 "description" = get r2 "description" ->
  Feature styles (feature_props i r1) = Feature styles (feature_props j r2).
Proof.
  intros HS Ht Hd. unfold Feature.
  rewrite !feature_props_get by discriminate.
  by rewrite HS, Ht, Hd.
Qed.

Lemma Feature_depends_on_three_fields_witness :
  Feature (fun s => s) (feature_props 0 (FeatureList !!! 0)) =
  Feature (fun s => s) (feature_props 4 (<["id" := VNum 5]> (<["key" := VStr "k"]> (FeatureList !!! 0)))).
Proof.
  apply Feature_depends_on_three_fields; reflexivity.
Defined.

(** ** Further properties of [HomepageFeatures] and [Feature] *)



(** The props object React builds from [{key: idx, ...r}] is [r] without
    its [key] field, whatever the index. *)
Lemma feature_props_delete_key idx (r : jsobj) :
  feature_props idx r = delete "key" r.
Proof.
  apply map_eq. intros k. unfold feature_props, jsx_config.
  destruct (decide (k = "key")) as [->|Hk].
  - by rewrite !lookup_delete_eq.
  - rewrite !lookup_delete_ne by congruence.
    rewrite lookup_union, lookup_singleton_ne by congruence.
    by destruct (r !! k).
Qed.

Lemma render_cards_mapM styles idx recs :
  render_cards styles idx recs = mapM (fun r => Feature styles (delete "key" r)) recs.
Proof.
  revert idx. induction recs as [|r recs IH]; intros idx; [done|].
  simpl. rewrite feature_props_delete_key, IH.
  by destruct (Feature styles (delete "key" r)), (mapM _ recs).
Qed.





(** X3: on an array of plain records, the rendered row is [Feature] mapped
    over the records (each without [key]), in order; the position of a
    record plays no part in its card. *)
Theorem render_page_is_map_Feature styles (σ : store) fl ls recs :
  σ !! fl = Some (HArr ls) -> Forall2 (points_to σ) ls recs ->
  exists σ',
    render_page styles σ fl =
      (fun outs => (σ', section styles outs)) <$>
        mapM (fun r => Feature styles (delete "key" r)) recs.
Proof.
  intros Hfl Hall.
  destruct (render_page_spec styles _ _ _ _ Hfl Hall) as (σ' & _ & _ & _ & _ & _ & Hr).
  exists σ'. by rewrite Hr, render_cards_mapM.
Qed.

Lemma render_page_is_map_Feature_witness :
  exists σ',
    render_page (fun s => s) init_store FeatureList_loc =
      (fun outs => (σ', section (fun s => s) outs)) <$>
        mapM (fun r => Feature (fun s => s) (delete "key" r)) FeatureList.
Proof.
  destruct init_store_FeatureList as [Hfl Hall].
  exact (render_page_is_map_Feature (fun s => s) _ _ _ _ Hfl Hall).
Defined.




